(** * Review classification with active learning: the sampling controller

    A shallow embedding of the notebook
    [review_classification_with_active_learning_.ipynb]:
    - the module-level train/validation/test/pool split,
    - the ratio-based sampling arithmetic of [train_active_learning_models]
      (Python floats are IEEE binary64, modelled by Rocq's primitive floats),
    - the active-learning loop itself, with the Keras model, its [fit] and
      [evaluate] and the weights it carries taken as parameters, and the
      [ModelCheckpoint] callback and the [tf.data] [take]/[skip]/[concatenate]
      operations written out.  *)

From Stdlib Require Import ZArith QArith Qround List Permutation Lia Bool Uint63.
From Stdlib Require Import Floats.
Import ListNotations.

(* Decimal float literals denote the nearest double, as they do in Python. *)
Set Warnings "-inexact-float".

Local Open Scope Z_scope.

(** ** Python results: a value or a raised exception *)

Inductive error : Set :=
| ValueError      (* int(nan) *)
| OverflowError   (* int(inf) *)
| OSError.        (* load_model on a file that was never written *)

(** [Unmodelled] is not a Python result: it marks a call that lies outside
    what this development models (see [Dataset.modelled_count]), and about
    which nothing is stated. *)
Inductive outcome (A : Type) : Type :=
| Returned (a : A)
| Raised (e : error)
| Unmodelled.
Arguments Returned {A} a.
Arguments Raised {A} e.
Arguments Unmodelled {A}.

Definition bind {A B : Type} (c : outcome A) (k : A -> outcome B) : outcome B :=
  match c with
  | Returned a => k a
  | Raised e => Raised e
  | Unmodelled => Unmodelled
  end.

Notation "'let*' x ':=' c 'in' k" := (bind c (fun x => k))
  (at level 10, x pattern, c at level 100, k at level 200).

(** ** Python floats and [int()] *)

Module PyFloat.

(** [float(n)] for a Python int: the nearest binary64 value, ties to even. *)
Definition float_of_int (n : Z) : float :=
  SF2Prim (binary_normalize prec emax n 0 false).

(** [int(x)]: truncation toward zero; [nan] and the infinities raise.
    A finite binary64 value is [(-1)^s * m * 2^e]. *)
Definition python_int (x : float) : outcome Z :=
  match Prim2SF x with
  | S754_nan => Raised ValueError
  | S754_infinity _ => Raised OverflowError
  | S754_zero _ => Returned 0
  | S754_finite s m e =>
      let a := match e with
               | Zneg p => Z.shiftr (Zpos m) (Zpos p)
               | _ => Z.shiftl (Zpos m) e
               end in
      Returned (if s then - a else a)
  end.

(** The rational number a finite float stands for (0 for nan and the
    infinities, which the statements below exclude). *)
Definition to_Q (x : float) : Q :=
  match Prim2SF x with
  | S754_finite s m e =>
      let z := if s then Zneg m else Zpos m in
      match e with
      | Zneg p => z # (2 ^ p)
      | _ => inject_Z (z * 2 ^ e)
      end
  | _ => 0%Q
  end.

(** [x] is a finite float that is not negative (either zero counts). *)
Definition finite_nonneg (x : float) : Prop :=
  (0 <=? x)%float = true /\ (x <? infinity)%float = true.


End PyFloat.

(** ** tf.data datasets as lists *)

Module Dataset.
Section Ops.
Context {A : Type}.

(** The counts for which [take] and [skip] are modelled:
    [0 <= count < 2^31].  There both are list slicing.  Outside, tf.data's
    behaviour is not that of a list: the count is converted to a 64-bit
    tensor (a larger Python int is refused), the iterator of [skip]
    advances with a 32-bit counter (a count of 2^31 or more is not skipped
    in full, while the reported length is computed from the full count),
    and a negative count yields a dataset whose length [len] may not
    report. *)
Definition modelled_count (count : Z) : bool :=
  (0 <=? count) && (count <? 2147483648).

(** [ds.take(count)]: the first [count] elements; all of them when
    [count] exceeds the size. *)
Definition take (count : Z) (ds : list A) : outcome (list A) :=
  if modelled_count count then Returned (firstn (Z.to_nat count) ds) else Unmodelled.

(** [ds.skip(count)]: the dataset without its first [count] elements;
    empty when [count] exceeds the size. *)
Definition skip (count : Z) (ds : list A) : outcome (list A) :=
  if modelled_count count then Returned (skipn (Z.to_nat count) ds) else Unmodelled.

(** [a.concatenate(b)] *)
Definition concatenate (a b : list A) : list A := a ++ b.

(** [len(ds)] *)
Definition len (ds : list A) : Z := Z.of_nat (length ds).
End Ops.
End Dataset.

(** ** The train/validation/test/pool split (module level) *)

Module Split.
Section Construction.
Context {X : Type}.   (* a review *)

(** [a[labels == c]]: boolean-mask selection, order preserved. *)
Fixpoint mask_select {A : Type} (a : list A) (labels : list Z) (c : Z) : list A :=
  match a, labels with
  | x :: a', l :: labels' =>
      if l =? c then x :: mask_select a' labels' c else mask_select a' labels' c
  | _, _ => []
  end.

(** [a[i:j]] for non-negative [i], [j]: numpy clips to the length. *)
Definition slice {A : Type} (a : list A) (i j : nat) : list A :=
  firstn (j - i) (skipn i a).

(** [a[i:]] *)
Definition slice_from {A : Type} (a : list A) (i : nat) : list A := skipn i a.

(** [tf.data.Dataset.from_tensor_slices((x, y))] *)
Definition from_tensor_slices (x : list X) (y : list Z) : list (X * Z) :=
  combine x y.

Record splits : Type := {
  train_dataset : list (X * Z);
  val_dataset : list (X * Z);
  test_dataset : list (X * Z);
  pool_negatives : list (X * Z);
  pool_positives : list (X * Z)
}.

Definition make_splits (reviews : list X) (labels : list Z)
           (val_split test_split train_split : nat) : splits :=
  let x_positives := mask_select reviews labels 1 in
  let y_positives := mask_select labels labels 1 in
  let x_negatives := mask_select reviews labels 0 in
  let y_negatives := mask_select labels labels 0 in
  let x_val := slice x_positives 0 val_split ++ slice x_negatives 0 val_split in
  let y_val := slice y_positives 0 val_split ++ slice y_negatives 0 val_split in
  let x_test := slice x_positives val_split (val_split + test_split)
                ++ slice x_negatives val_split (val_split + test_split) in
  let y_test := slice y_positives val_split (val_split + test_split)
                ++ slice y_negatives val_split (val_split + test_split) in
  let x_train :=
    slice x_positives (val_split + test_split) (val_split + test_split + train_split)
    ++ slice x_negatives (val_split + test_split) (val_split + test_split + train_split) in
  let y_train :=
    slice y_positives (val_split + test_split) (val_split + test_split + train_split)
    ++ slice y_negatives (val_split + test_split) (val_split + test_split + train_split) in
  let x_pool_positives := slice_from x_positives (val_split + test_split + train_split) in
  let y_pool_positives := slice_from y_positives (val_split + test_split + train_split) in
  let x_pool_negatives := slice_from x_negatives (val_split + test_split + train_split) in
  let y_pool_negatives := slice_from y_negatives (val_split + test_split + train_split) in
  {| train_dataset := from_tensor_slices x_train y_train;
     val_dataset := from_tensor_slices x_val y_val;
     test_dataset := from_tensor_slices x_test y_test;
     pool_negatives := from_tensor_slices x_pool_negatives y_pool_negatives;
     pool_positives := from_tensor_slices x_pool_positives y_pool_positives |}.

(** The cell as a Python computation: it has no [raise] and slicing
    never fails, so it always returns. *)
Definition construct (reviews : list X) (labels : list Z)
           (val_split test_split train_split : nat) : outcome splits :=
  Returned (make_splits reviews labels val_split test_split train_split).

(** The examples of one class, in corpus order. *)
Definition class_examples (reviews : list X) (labels : list Z) (c : Z) : list (X * Z) :=
  filter (fun xy => snd xy =? c) (combine reviews labels).

End Construction.
End Split.

(** ** The sampling arithmetic of the loop body *)

Module Sampling.
Import PyFloat.

(** The [if false_negatives != 0 and false_positives != 0] block:
    returns [(sample_ratio_ones, sample_ratio_zeros)]. *)
Definition sample_ratios (false_negatives false_positives : float) : float * float :=
  if negb (false_negatives =? 0)%float && negb (false_positives =? 0)%float then
    let total := (false_negatives + false_positives)%float in
    ((false_positives / total)%float, (false_negatives / total)%float)
  else (0.5%float, 0.5%float).

(** [int(sample_ratio * sampling_size)] *)
Definition sample_count (sample_ratio : float) (sampling_size : Z) : outcome Z :=
  python_int (sample_ratio * float_of_int sampling_size)%float.

(** The two counts a round asks for, negatives first as in the source:
    [(k_zeros, k_ones)]. *)
Definition sample_counts (false_negatives false_positives : float)
           (sampling_size : Z) : outcome (Z * Z) :=
  let '(sample_ratio_ones, sample_ratio_zeros) :=
    sample_ratios false_negatives false_positives in
  let* k_zeros := sample_count sample_ratio_zeros sampling_size in
  let* k_ones := sample_count sample_ratio_ones sampling_size in
  Returned (k_zeros, k_ones).




End Sampling.

(** ** The Keras collaborator *)

Module Keras.
Section Model.
Variable Weights : Type.   (* the trainable parameters of the model *)

(** One finished epoch of [model.fit]: the weights the model holds when
    the epoch ends and the four logged metrics.  Losses are compared
    only; a finite double is the rational it stands for. *)
Record epoch : Type := {
  ep_weights : Weights;
  ep_loss : Q;
  ep_val_loss : Q;
  ep_binary_accuracy : Q;
  ep_val_binary_accuracy : Q
}.

(** [model.evaluate(test_dataset, verbose=0)] with the compiled metrics:
    [loss, binary_accuracy, false_negatives, false_positives]. *)
Record metrics : Type := {
  loss : float;
  binary_accuracy : float;
  false_negatives : float;
  false_positives : float
}.

(** [ModelCheckpoint("AL_Model.h5", save_best_only=True)]: the callback
    object's [best] (initially +inf, here [None]) and the content of the
    file it writes ([None] until the first save).  The object is created
    once and passed to every [fit], so [best] lives across calls. *)
Record checkpoint : Type := {
  best : option Q;
  saved : option Weights
}.

Definition new_checkpoint : checkpoint := {| best := None; saved := None |}.

(** [monitor_op(current, self.best)] with [monitor_op = np.less] *)
Definition improves (current : Q) (b : option Q) : bool :=
  match b with
  | None => true
  | Some v => negb (Qle_bool v current)
  end.

(** [ModelCheckpoint.on_epoch_end]: save when [val_loss] improved on
    [best]. *)
Definition on_epoch_end (ck : checkpoint) (e : epoch) : checkpoint :=
  if improves (ep_val_loss e) (best ck)
  then {| best := Some (ep_val_loss e); saved := Some (ep_weights e) |}
  else ck.

(** [model.fit(..., callbacks=[checkpoint, EarlyStopping(patience=4)])]
    given the epochs that were run: the weights the model is left with
    (those of the last epoch; [EarlyStopping] does not restore), the
    callback afterwards, and [history]. *)
Definition fit (w : Weights) (ck : checkpoint) (epochs : list epoch)
  : Weights * checkpoint * list epoch :=
  (last (map ep_weights epochs) w, fold_left on_epoch_end epochs ck, epochs).

(** [keras.models.load_model("AL_Model.h5")] *)
Definition load_model (ck : checkpoint) : outcome Weights :=
  match saved ck with
  | Some w => Returned w
  | None => Raised OSError
  end.

(** Helper of the notebook: [append_history]. *)
Definition append_history (losses val_losses accuracy val_accuracy : list Q)
           (history : list epoch) : list Q * list Q * list Q * list Q :=
  (losses ++ map ep_loss history,
   val_losses ++ map ep_val_loss history,
   accuracy ++ map ep_binary_accuracy history,
   val_accuracy ++ map ep_val_binary_accuracy history).

(** [ck] is what the callback holds after seeing exactly the epochs [es]:
    nothing yet, or the loss and the weights of an epoch that no epoch of
    [es] beats. *)
Definition tracks (ck : checkpoint) (es : list epoch) : Prop :=
  (es = [] /\ ck = new_checkpoint)
  \/ exists e, In e es
               /\ (forall e', In e' es -> (ep_val_loss e <= ep_val_loss e')%Q)
               /\ best ck = Some (ep_val_loss e)
               /\ saved ck = Some (ep_weights e).
End Model.

Arguments ep_weights {Weights} e.
Arguments ep_loss {Weights} e.
Arguments ep_val_loss {Weights} e.
Arguments ep_binary_accuracy {Weights} e.
Arguments ep_val_binary_accuracy {Weights} e.
Arguments best {Weights} c.
Arguments saved {Weights} c.
Arguments new_checkpoint {Weights}.
Arguments on_epoch_end {Weights} ck e.
Arguments fit {Weights} w ck epochs.
Arguments load_model {Weights} ck.
Arguments append_history {Weights} losses val_losses accuracy val_accuracy history.
Arguments tracks {Weights} ck es.
End Keras.

(** ** [train_active_learning_models] *)

Module ActiveLearning.
Import PyFloat Dataset Sampling Keras.

Section Controller.
Context {X : Type}.                 (* a vectorized review *)
Context {Weights : Type}.

(** [create_model()]: the freshly initialised weights. *)
Variable create_model : Weights.
(** The epochs [model.fit] runs (at most 20, cut short by early
    stopping), given which call it is (0 for the initial fit,
    [iteration + 1] inside the loop; shuffling differs between calls),
    the weights it starts from, the training data and the validation
    data. *)
Variable run_epochs :
  nat -> Weights -> list (X * Z) -> list (X * Z) -> list (epoch Weights).
(** [model.evaluate] *)
Variable evaluate : Weights -> list (X * Z) -> metrics.

(** What the function prints, one constructor per [print] call. *)
Inductive line : Type :=
| StartingToTrain (samples : Z)           (* "Starting to train with {} samples" *)
| Rule                                    (* "-" * 100 *)
| Misclassified (false_negatives false_positives : float)
| SampleRatio (sample_ratio_ones sample_ratio_zeros : float)
| StartingTraining (samples : Z)          (* "Starting training with {} samples" *)
| TestSetEvaluation (m : metrics).

(** The local variables of the function. *)
Record state : Type := {
  train_dataset : list (X * Z);
  pool_negatives : list (X * Z);
  pool_positives : list (X * Z);
  val_dataset : list (X * Z);
  test_dataset : list (X * Z);
  model : Weights;
  checkpoint : Keras.checkpoint Weights;
  losses : list Q;
  val_losses : list Q;
  accuracies : list Q;
  val_accuracies : list Q;
  stdout : list line
}.

(** What one pass of the loop body did: the variables when the pass
    begins and when it ends, and what happened in between. *)
Record round_record : Type := {
  rr_before : state;
  rr_evaluation : metrics;
  rr_k_zeros : Z;                       (* requested from pool_negatives *)
  rr_k_ones : Z;                        (* requested from pool_positives *)
  rr_sampled_negatives : list (X * Z);  (* pool_negatives.take(k_zeros) *)
  rr_sampled_positives : list (X * Z);  (* pool_positives.take(k_ones) *)
  rr_history : list (epoch Weights);    (* the epochs of this pass's fit *)
  rr_fit_end : Weights;                 (* weights that fit leaves in memory *)
  rr_printed : list line;
  rr_after : state
}.

(** What the code before the loop did. *)
Record initial_record : Type := {
  ir_fit_start : Weights;
  ir_fit_end : Weights;
  ir_history : list (epoch Weights)
}.

(** Everything up to the [for]: create and compile the model, create the
    checkpoint callback, fit once, append the history. *)
Definition initial_fit (train_dataset pool_negatives pool_positives
                        val_dataset test_dataset : list (X * Z))
  : state * initial_record :=
  let model := create_model in
  let checkpoint := new_checkpoint in
  let out := [StartingToTrain (len train_dataset)] in
  let '(model', checkpoint', history) :=
    fit model checkpoint (run_epochs 0%nat model train_dataset val_dataset) in
  let '(losses, val_losses, accuracies, val_accuracies) :=
    append_history [] [] [] [] history in
  ({| train_dataset := train_dataset;
      pool_negatives := pool_negatives;
      pool_positives := pool_positives;
      val_dataset := val_dataset;
      test_dataset := test_dataset;
      model := model';
      checkpoint := checkpoint';
      losses := losses;
      val_losses := val_losses;
      accuracies := accuracies;
      val_accuracies := val_accuracies;
      stdout := out |},
   {| ir_fit_start := model; ir_fit_end := model'; ir_history := history |}).

(** The loop body.  ([model.predict] and [rounded] are computed and not
    used; recompiling resets the optimizer and keeps the weights.) *)
Definition active_learning_round (sampling_size : Z) (iteration : nat) (st : state)
  : outcome (state * round_record) :=
  let ev := evaluate (model st) (test_dataset st) in
  let fn := false_negatives ev in
  let fp := false_positives ev in
  let '(sample_ratio_ones, sample_ratio_zeros) := sample_ratios fn fp in
  let* k_zeros := sample_count sample_ratio_zeros sampling_size in
  let* sampled_negatives := take k_zeros (pool_negatives st) in
  let* k_ones := sample_count sample_ratio_ones sampling_size in
  let* sampled_positives := take k_ones (pool_positives st) in
  let sampled_dataset := concatenate sampled_negatives sampled_positives in
  let* pool_negatives' := skip k_zeros (pool_negatives st) in
  let* pool_positives' := skip k_ones (pool_positives st) in
  let train_dataset' := concatenate (train_dataset st) sampled_dataset in
  let printed :=
    [Rule; Misclassified fn fp; SampleRatio sample_ratio_ones sample_ratio_zeros;
     StartingTraining (len train_dataset'); Rule] in
  let '(model', checkpoint', history) :=
    fit (model st) (checkpoint st)
        (run_epochs (S iteration) (model st) train_dataset' (val_dataset st)) in
  let '(losses', val_losses', accuracies', val_accuracies') :=
    append_history (losses st) (val_losses st) (accuracies st) (val_accuracies st)
                   history in
  let* loaded := load_model checkpoint' in
  let st' :=
    {| train_dataset := train_dataset';
       pool_negatives := pool_negatives';
       pool_positives := pool_positives';
       val_dataset := val_dataset st;
       test_dataset := test_dataset st;
       model := loaded;
       checkpoint := checkpoint';
       losses := losses';
       val_losses := val_losses';
       accuracies := accuracies';
       val_accuracies := val_accuracies';
       stdout := stdout st ++ printed |} in
  Returned
    (st',
     {| rr_before := st;
        rr_evaluation := ev;
        rr_k_zeros := k_zeros;
        rr_k_ones := k_ones;
        rr_sampled_negatives := sampled_negatives;
        rr_sampled_positives := sampled_positives;
        rr_history := history;
        rr_fit_end := model';
        rr_printed := printed;
        rr_after := st' |}).

(** [for iteration in range(num_iterations)] *)
Fixpoint loop (sampling_size : Z) (iterations : list nat) (st : state)
  : outcome (state * list round_record) :=
  match iterations with
  | [] => Returned (st, [])
  | iteration :: rest =>
      let* (st1, r) := active_learning_round sampling_size iteration st in
      let* (st2, rs) := loop sampling_size rest st1 in
      Returned (st2, r :: rs)
  end.

(** The code after the loop: the final test-set evaluation. *)
Definition final_evaluation (st : state) : state :=
  {| train_dataset := train_dataset st;
     pool_negatives := pool_negatives st;
     pool_positives := pool_positives st;
     val_dataset := val_dataset st;
     test_dataset := test_dataset st;
     model := model st;
     checkpoint := checkpoint st;
     losses := losses st;
     val_losses := val_losses st;
     accuracies := accuracies st;
     val_accuracies := val_accuracies st;
     stdout := stdout st
               ++ [Rule; TestSetEvaluation (evaluate (model st) (test_dataset st)); Rule] |}.

(** The whole function.  It returns [model]; the final state and the
    record of what happened are returned along with it. *)
Definition train_active_learning_models
           (train_dataset pool_negatives pool_positives
            val_dataset test_dataset : list (X * Z))
           (num_iterations : nat) (sampling_size : Z)
  : outcome (Weights * state * initial_record * list round_record) :=
  let '(st0, init) :=
    initial_fit train_dataset pool_negatives pool_positives val_dataset test_dataset in
  let* (st, rounds) := loop sampling_size (seq 0 num_iterations) st0 in
  let st' := final_evaluation st in
  Returned (model st', st', init, rounds).

(** All epochs of a run, in the order they were trained. *)
Definition all_epochs (init : initial_record) (rounds : list round_record)
  : list (epoch Weights) :=
  ir_history init ++ concat (map rr_history rounds).

(** *** Vocabulary for the statements about a run *)

(** One pass of the loop body, spelled out. *)
Definition round_spec (sampling_size : Z) (iteration : nat)
           (st st' : state) (r : round_record) : Prop :=
  let ev := evaluate (model st) (test_dataset st) in
  let history :=
    run_epochs (S iteration) (model st) (train_dataset st') (val_dataset st) in
  rr_before r = st /\ rr_after r = st'
  /\ rr_evaluation r = ev
  /\ sample_counts (false_negatives ev) (false_positives ev) sampling_size
     = Returned (rr_k_zeros r, rr_k_ones r)
  /\ take (rr_k_zeros r) (pool_negatives st) = Returned (rr_sampled_negatives r)
  /\ take (rr_k_ones r) (pool_positives st) = Returned (rr_sampled_positives r)
  /\ skip (rr_k_zeros r) (pool_negatives st) = Returned (pool_negatives st')
  /\ skip (rr_k_ones r) (pool_positives st) = Returned (pool_positives st')
  /\ train_dataset st'
     = train_dataset st ++ rr_sampled_negatives r ++ rr_sampled_positives r
  /\ val_dataset st' = val_dataset st
  /\ test_dataset st' = test_dataset st
  /\ rr_history r = history
  /\ rr_fit_end r = last (map ep_weights history) (model st)
  /\ checkpoint st' = fold_left on_epoch_end history (checkpoint st)
  /\ saved (checkpoint st') = Some (model st')
  /\ val_losses st' = val_losses st ++ map ep_val_loss history
  /\ rr_printed r
     = [Rule; Misclassified (false_negatives ev) (false_positives ev);
        SampleRatio (fst (sample_ratios (false_negatives ev) (false_positives ev)))
                    (snd (sample_ratios (false_negatives ev) (false_positives ev)));
        StartingTraining (len (train_dataset st')); Rule]
  /\ stdout st' = stdout st ++ rr_printed r.

(** Consecutive passes: each begins in the state the previous one ended in. *)
Fixpoint linked (st : state) (rs : list round_record) (st' : state) : Prop :=
  match rs with
  | [] => st = st'
  | r :: rs' => rr_before r = st /\ linked (rr_after r) rs' st'
  end.

Definition rounds_spec (sampling_size : Z) (iterations : list nat)
           (rs : list round_record) : Prop :=
  Forall2 (fun i r => round_spec sampling_size i (rr_before r) (rr_after r) r)
          iterations rs.

(** The code before the loop, spelled out. *)
Definition initial_spec (train pool_neg pool_pos val test : list (X * Z))
           (st0 : state) (init : initial_record) : Prop :=
  let history := run_epochs 0%nat create_model train val in
  train_dataset st0 = train /\ pool_negatives st0 = pool_neg
  /\ pool_positives st0 = pool_pos /\ val_dataset st0 = val
  /\ test_dataset st0 = test
  /\ ir_fit_start init = create_model
  /\ ir_history init = history
  /\ ir_fit_end init = last (map ep_weights history) create_model
  /\ model st0 = ir_fit_end init
  /\ checkpoint st0 = fold_left on_epoch_end history new_checkpoint
  /\ val_losses st0 = map ep_val_loss history
  /\ stdout st0 = [StartingToTrain (len train)].

(** A pass asked one of the reservoirs for more than it held. *)
Definition exhausted (r : round_record) : Prop :=
  len (pool_negatives (rr_before r)) < rr_k_zeros r
  \/ len (pool_positives (rr_before r)) < rr_k_ones r.

End Controller.
End ActiveLearning.

(** ** A toy classifier and corpus, to run the model on *)

Module Fixture.

(** Weights are numbered; [create_model] gives number 0. *)
Definition create_model : nat := 0%nat.

(** Validation loss of epoch [k] of fit number [call]: the first fit does
    best in its first epoch, the second improves on it and then regresses,
    later ones never improve. *)
Definition val_loss_of (call k : nat) : Q :=
  match call, k with
  | O, O => 1
  | O, _ => 5
  | S O, O => 1 # 2
  | S O, _ => 7
  | _, O => 3
  | _, _ => 4
  end%Q.

Definition epoch_of (call w k : nat) : Keras.epoch nat :=
  {| Keras.ep_weights := (w + S k)%nat;
     Keras.ep_loss := 1;
     Keras.ep_val_loss := val_loss_of call k;
     Keras.ep_binary_accuracy := 1 # 2;
     Keras.ep_val_binary_accuracy := 1 # 2 |}.

(** Every fit trains two epochs, each moving on to the next weights. *)
Definition run_epochs (call w : nat) (train val : list (nat * Z))
  : list (Keras.epoch nat) :=
  [epoch_of call w 0; epoch_of call w 1].

(** Every evaluation finds 3 false negatives and 1 false positive. *)
Definition evaluate (w : nat) (test : list (nat * Z)) : Keras.metrics :=
  {| Keras.loss := 0.5; Keras.binary_accuracy := 0.5;
     Keras.false_negatives := 3; Keras.false_positives := 1 |}.

(** 20 positive and 20 negative reviews, numbered, labels alternating. *)
Definition reviews : list nat := seq 0 40.
Definition labels : list Z := map (fun k => Z.of_nat (Nat.modulo k 2)) (seq 0 40).
Definition corpus : Split.splits := Split.make_splits reviews labels 2 2 4.

Definition run (num_iterations : nat) (sampling_size : Z) :=
  ActiveLearning.train_active_learning_models create_model run_epochs evaluate
    (Split.train_dataset corpus) (Split.pool_negatives corpus)
    (Split.pool_positives corpus) (Split.val_dataset corpus)
    (Split.test_dataset corpus) num_iterations sampling_size.

(** The state after the initial fit, for given train set and reservoirs. *)
Definition after_initial_fit (train pool_neg pool_pos : list (nat * Z))
  : ActiveLearning.state :=
  fst (ActiveLearning.initial_fit create_model run_epochs train pool_neg pool_pos
         (Split.val_dataset corpus) (Split.test_dataset corpus)).

Definition examples (first count : nat) (label : Z) : list (nat * Z) :=
  map (fun k => (k, label)) (seq first count).

(** Two states after the initial fit: in the first both reservoirs hold
    what the pass will ask for, in the second the negatives run out. *)
Definition ample : ActiveLearning.state :=
  after_initial_fit (examples 0 8 1) (examples 100 12 0) (examples 200 12 1).
Definition short : ActiveLearning.state :=
  after_initial_fit (examples 0 13 1) (examples 100 1 0) (examples 200 12 1).

End Fixture.

(** * Properties *)

(** ** Floats, [int()] and the sampling arithmetic *)

Module SamplingFacts.
Import PyFloat Sampling.




(** On finite non-negative floats [int()] is the floor of the value. *)
Lemma python_int_floor (x : float) :
  finite_nonneg x -> python_int x = Returned (Qfloor (to_Q x)).
Proof.
  unfold finite_nonneg, python_int, to_Q.
  rewrite leb_spec, ltb_spec.
  change (Prim2SF 0) with (S754_zero false).
  change (Prim2SF infinity) with (S754_infinity false).
  destruct (Prim2SF x) as [s | s | | s m e]; intros [H0 Hinf].
  - reflexivity.
  - destruct s; discriminate.
  - discriminate.
  - destruct s; [discriminate |].
    destruct e as [| q | q].
    + rewrite Qfloor_Z. f_equal. cbn. lia.
    + rewrite Qfloor_Z, Z.shiftl_mul_pow2 by lia. reflexivity.
    + rewrite Z.shiftr_div_pow2 by lia. cbn [Qfloor].
      rewrite Pos2Z.inj_pow. reflexivity.
Qed.

(** On negative floats it is not: [int(-1.5)] is [-1], the floor is [-2]. *)
Lemma python_int_truncates_toward_zero :
  python_int (-1.5) = Returned (-1) /\ Qfloor (to_Q (-1.5)) = -2.
Proof. split; reflexivity. Qed.

Lemma SFadd_comm (x y : spec_float) : SF64add x y = SF64add y x.
Proof.
  unfold SF64add, SFadd.
  destruct x as [sx | sx | | sx mx ex], y as [sy | sy | | sy my ey];
    try reflexivity.
  - destruct sx, sy; reflexivity.
  - destruct sx, sy; reflexivity.
  - change IntDef.Z.add with Z.add. change IntDef.Z.min with Z.min.
    rewrite (Z.min_comm ey ex). f_equal. apply Z.add_comm.
Qed.

Lemma float_add_comm (x y : float) : (x + y = y + x)%float.
Proof.
  apply Prim2SF_inj. rewrite !add_spec. apply SFadd_comm.
Qed.





(** The examples of the notebook's comment and of the specification. *)
Example ratios_30_70 : sample_ratios 30 70 = (0.7, 0.3)%float.
Proof. reflexivity. Qed.

Example ratios_0_12 : sample_ratios 0 12 = (0.5, 0.5)%float.
Proof. reflexivity. Qed.

Example count_07_5000 : sample_count 0.7 5000 = Returned 3500.
Proof. reflexivity. Qed.

(** Floor, not rounding: a third of 5000 is 1666.67 and gives 1666. *)
Example counts_1_2_5000 : sample_counts 1 2 5000 = Returned (1666, 3333).
Proof. reflexivity. Qed.

(** The count is the floor of the double product, which need not be the
    floor of the exact product: 69/100 of 5000 gives 3449. *)
Example counts_31_69_5000 : sample_counts 31 69 5000 = Returned (1550, 3449).
Proof. reflexivity. Qed.

(** C1. Ratio computation: when both error counts are non-zero the share of
    positives to sample is fp/(fp+fn) and the share of negatives is
    fn/(fp+fn); when either count is zero both shares are 0.5. *)
Theorem sample_ratios_cross_assignment (false_negatives false_positives : float) :
  ((false_negatives =? 0)%float = false ->
   (false_positives =? 0)%float = false ->
   sample_ratios false_negatives false_positives
   = ((false_positives / (false_positives + false_negatives))%float,
      (false_negatives / (false_positives + false_negatives))%float))
  /\ ((false_negatives =? 0)%float = true \/ (false_positives =? 0)%float = true ->
      sample_ratios false_negatives false_positives = (0.5%float, 0.5%float)).
Proof.
  unfold sample_ratios. split.
  - intros -> ->. cbn [negb andb].
    rewrite (float_add_comm false_positives false_negatives). reflexivity.
  - intros [-> | ->]; cbn [negb andb]; [reflexivity |].
    rewrite andb_false_r. reflexivity.
Qed.

(** C8. Sample-count arithmetic: the count taken for a class is the floor
    of [ratio * sampling_size] (the product as Python computes it, a finite
    non-negative double), not its rounding; so the two counts of a round,
    [k_zeros] and [k_ones], are the floors of the two products. *)
Theorem sample_count_is_floor :
  (forall (sample_ratio : float) (sampling_size : Z),
      finite_nonneg (sample_ratio * float_of_int sampling_size) ->
      sample_count sample_ratio sampling_size
      = Returned (Qfloor (to_Q (sample_ratio * float_of_int sampling_size))))
  /\ (forall (false_negatives false_positives : float) (sampling_size : Z),
         let sample_ratio_ones := fst (sample_ratios false_negatives false_positives) in
         let sample_ratio_zeros := snd (sample_ratios false_negatives false_positives) in
         finite_nonneg (sample_ratio_ones * float_of_int sampling_size) ->
         finite_nonneg (sample_ratio_zeros * float_of_int sampling_size) ->
         sample_counts false_negatives false_positives sampling_size
         = Returned
             (Qfloor (to_Q (sample_ratio_zeros * float_of_int sampling_size)),
              Qfloor (to_Q (sample_ratio_ones * float_of_int sampling_size)))).
Proof.
  split.
  - intros sample_ratio sampling_size H. unfold sample_count.
    apply python_int_floor. exact H.
  - intros fn fp s r1 r0 H1 H0. subst r1 r0. unfold sample_counts, sample_count.
    destruct (sample_ratios fn fp) as [r1 r0]. cbn [fst snd] in *.
    rewrite (python_int_floor _ H0), (python_int_floor _ H1). reflexivity.
Qed.


End SamplingFacts.

(** ** The split *)

Module SplitFacts.
Import Split.
Section Facts.
Context {X : Type}.

Lemma mask_select_combine (c : Z) (labels : list Z) :
  forall reviews : list X,
    combine (mask_select reviews labels c) (mask_select labels labels c)
    = class_examples reviews labels c.
Proof.
  unfold class_examples.
  induction labels as [| l labels IH]; intros [| x reviews]; cbn; try reflexivity.
  destruct (l =? c); cbn; rewrite IH; reflexivity.
Qed.

Lemma mask_select_length (c : Z) (labels : list Z) :
  forall reviews : list X,
    length reviews = length labels ->
    length (mask_select reviews labels c) = length (mask_select labels labels c).
Proof.
  induction labels as [| l labels IH]; intros [| x reviews] Hlen;
    cbn in *; try discriminate; try reflexivity.
  destruct (l =? c); cbn; rewrite IH by lia; reflexivity.
Qed.

Lemma combine_skipn {A B : Type} (n : nat) :
  forall (a : list A) (b : list B),
    combine (skipn n a) (skipn n b) = skipn n (combine a b).
Proof.
  induction n as [| n IH]; intros [| x a] [| y b]; cbn; try reflexivity.
  - destruct (skipn n a); reflexivity.
  - apply IH.
Qed.

Lemma combine_slice {A B : Type} (i j : nat) (a : list A) (b : list B) :
  combine (slice a i j) (slice b i j) = slice (combine a b) i j.
Proof.
  unfold slice. rewrite <- combine_firstn, combine_skipn. reflexivity.
Qed.

Lemma combine_app_same {A B : Type} (a a' : list A) (b b' : list B) :
  length a = length b ->
  combine (a ++ a') (b ++ b') = combine a b ++ combine a' b'.
Proof.
  revert b. induction a as [| x a IH]; intros [| y b] Hlen;
    cbn in *; try discriminate; [reflexivity |].
  rewrite IH by lia. reflexivity.
Qed.

Lemma slice_length_same {A B : Type} (i j : nat) (a : list A) (b : list B) :
  length a = length b -> length (slice a i j) = length (slice b i j).
Proof.
  intros H. unfold slice. rewrite !length_firstn, !length_skipn, H. reflexivity.
Qed.

(** The five datasets in terms of the two per-class sequences. *)
Lemma make_splits_by_class (reviews : list X) (labels : list Z) (v t tr : nat) :
  length reviews = length labels ->
  let P := class_examples reviews labels 1 in
  let N := class_examples reviews labels 0 in
  make_splits reviews labels v t tr
  = {| train_dataset := firstn tr (skipn (v + t) P) ++ firstn tr (skipn (v + t) N);
       val_dataset := firstn v P ++ firstn v N;
       test_dataset := firstn t (skipn v P) ++ firstn t (skipn v N);
       pool_negatives := skipn (v + t + tr) N;
       pool_positives := skipn (v + t + tr) P |}.
Proof.
  intros Hlen P N. unfold make_splits, from_tensor_slices, slice_from.
  pose proof (mask_select_length 1 labels reviews Hlen) as H1.
  pose proof (mask_select_length 0 labels reviews Hlen) as H0.
  rewrite !combine_app_same by (apply slice_length_same; assumption).
  rewrite !combine_slice, !combine_skipn, !mask_select_combine.
  fold P N. unfold slice.
  replace (v - 0)%nat with v by lia.
  replace (v + t - v)%nat with t by lia.
  replace (v + t + tr - (v + t))%nat with tr by lia.
  reflexivity.
Qed.

Lemma four_pieces {A : Type} (v t tr : nat) (l : list A) :
  l = firstn v l ++ firstn t (skipn v l) ++ firstn tr (skipn (v + t) l)
  ++ skipn (v + t + tr) l.
Proof.
  rewrite <- (firstn_skipn v l) at 1. f_equal.
  rewrite <- (firstn_skipn t (skipn v l)) at 1. f_equal.
  rewrite skipn_skipn, (Nat.add_comm t v).
  rewrite <- (firstn_skipn tr (skipn (v + t) l)) at 1. f_equal.
  rewrite skipn_skipn. f_equal. lia.
Qed.

Lemma interleave_perm {A : Type} (a1 a2 a3 a4 b1 b2 b3 b4 : list A) :
  Permutation ((a1 ++ b1) ++ (a2 ++ b2) ++ (a3 ++ b3) ++ b4 ++ a4)
              ((a1 ++ a2 ++ a3 ++ a4) ++ (b1 ++ b2 ++ b3 ++ b4)).
Proof.
  repeat rewrite <- app_assoc.
  apply Permutation_app_head.
  etransitivity; [apply Permutation_app_swap_app |].
  apply Permutation_app_head.
  rewrite (app_assoc b1 b2).
  etransitivity; [apply Permutation_app_swap_app |].
  apply Permutation_app_head.
  repeat rewrite <- app_assoc.
  rewrite (app_assoc b1), (app_assoc (b1 ++ b2)), (app_assoc ((b1 ++ b2) ++ b3)).
  etransitivity; [apply Permutation_app_comm |].
  repeat rewrite <- app_assoc. reflexivity.
Qed.

Lemma class_examples_NoDup (reviews : list X) (labels : list Z) :
  NoDup (combine reviews labels) ->
  NoDup (class_examples reviews labels 1 ++ class_examples reviews labels 0).
Proof.
  intros Hnd. unfold class_examples.
  induction (combine reviews labels) as [| [x y] l IH]; cbn; [constructor |].
  inversion Hnd as [| ? ? Hnotin Hnd']; subst.
  specialize (IH Hnd').
  destruct (y =? 1) eqn:H1; destruct (y =? 0) eqn:H0; cbn; try lia.
  - constructor; [| exact IH].
    rewrite in_app_iff, !filter_In. tauto.
  - apply NoDup_Add with (a := (x, y)) (l := filter (fun xy => snd xy =? 1) l
                                              ++ filter (fun xy => snd xy =? 0) l).
    + apply Add_app.
    + split; [exact IH |]. rewrite in_app_iff, !filter_In. tauto.
  - exact IH.
Qed.

Lemma pieces_lengths {A : Type} (v t tr : nat) (l : list A) :
  (v + t + tr <= length l)%nat ->
  length (firstn v l) = v /\ length (firstn t (skipn v l)) = t
  /\ length (firstn tr (skipn (v + t) l)) = tr
  /\ length (skipn (v + t + tr) l) = (length l - (v + t + tr))%nat.
Proof.
  intros H. rewrite !length_firstn, !length_skipn. lia.
Qed.

(** C9. Initial partition: for a corpus with one label per review, the
    construction (a function of the corpus and the three sizes) takes, per
    class and in corpus order, the first [val_split] examples for validation,
    the next [test_split] for test, the next [train_split] for the initial
    train set and all the rest for that class's reservoir; with at least
    [val_split + test_split + train_split] examples per class each part has
    its nominal size; and the five sets share no example. *)
Theorem make_splits_partition (reviews : list X) (labels : list Z)
        (val_split test_split train_split : nat) :
  length reviews = length labels ->
  let P := class_examples reviews labels 1 in
  let N := class_examples reviews labels 0 in
  let s := make_splits reviews labels val_split test_split train_split in
  let val_P := firstn val_split P in
  let val_N := firstn val_split N in
  let test_P := firstn test_split (skipn val_split P) in
  let test_N := firstn test_split (skipn val_split N) in
  let train_P := firstn train_split (skipn (val_split + test_split) P) in
  let train_N := firstn train_split (skipn (val_split + test_split) N) in
  (val_dataset s = val_P ++ val_N
   /\ test_dataset s = test_P ++ test_N
   /\ train_dataset s = train_P ++ train_N)
  /\ P = val_P ++ test_P ++ train_P ++ pool_positives s
  /\ N = val_N ++ test_N ++ train_N ++ pool_negatives s
  /\ ((val_split + test_split + train_split <= length P)%nat ->
      (val_split + test_split + train_split <= length N)%nat ->
      length val_P = val_split /\ length val_N = val_split
      /\ length test_P = test_split /\ length test_N = test_split
      /\ length train_P = train_split /\ length train_N = train_split
      /\ length (pool_positives s)
         = (length P - (val_split + test_split + train_split))%nat
      /\ length (pool_negatives s)
         = (length N - (val_split + test_split + train_split))%nat)
  /\ (NoDup (combine reviews labels) ->
      NoDup (val_dataset s ++ test_dataset s ++ train_dataset s
             ++ pool_negatives s ++ pool_positives s)).
Proof.
  intros Hlen P N s val_P val_N test_P test_N train_P train_N.
  subst s. rewrite (make_splits_by_class reviews labels _ _ _ Hlen).
  fold P N. cbn [val_dataset test_dataset train_dataset pool_negatives pool_positives].
  split; [repeat split |].
  split; [apply four_pieces |].
  split; [apply four_pieces |].
  split.
  - intros HP HN.
    destruct (pieces_lengths val_split test_split train_split P HP) as (? & ? & ? & ?).
    destruct (pieces_lengths val_split test_split train_split N HN) as (? & ? & ? & ?).
    repeat split; assumption.
  - intros Hnd.
    apply (Permutation_NoDup (l := P ++ N)); [| apply class_examples_NoDup, Hnd].
    symmetry. etransitivity; [apply interleave_perm |].
    rewrite <- (four_pieces val_split test_split train_split P).
    rewrite <- (four_pieces val_split test_split train_split N).
    reflexivity.
Qed.

(** C4 (as amended). The construction never fails: slices are clipped to
    what a class holds.  A class with no more than the requested
    [val_split + test_split + train_split] examples leaves its reservoir
    empty, and when a class has fewer the three labeled sets together come
    out short of their nominal size. *)
Theorem construct_never_fails (reviews : list X) (labels : list Z)
        (val_split test_split train_split : nat) :
  length reviews = length labels ->
  let P := class_examples reviews labels 1 in
  let N := class_examples reviews labels 0 in
  exists s,
    construct reviews labels val_split test_split train_split = Returned s
    /\ ((length P <= val_split + test_split + train_split)%nat ->
        pool_positives s = [])
    /\ ((length N <= val_split + test_split + train_split)%nat ->
        pool_negatives s = [])
    /\ ((length P < val_split + test_split + train_split)%nat
        \/ (length N < val_split + test_split + train_split)%nat ->
        (length (val_dataset s) + length (test_dataset s) + length (train_dataset s)
         < 2 * (val_split + test_split + train_split))%nat).
Proof.
  intros Hlen P N. eexists. split; [reflexivity |].
  rewrite (make_splits_by_class reviews labels _ _ _ Hlen).
  fold P N. cbn [val_dataset test_dataset train_dataset pool_negatives pool_positives].
  split; [intros H; apply skipn_all2; exact H |].
  split; [intros H; apply skipn_all2; exact H |].
  intros H. rewrite !length_app, !length_firstn, !length_skipn. lia.
Qed.

End Facts.
End SplitFacts.

(** ** Datasets and the loop *)

Module DatasetFacts.
Import Dataset.
Section Facts.
Context {A : Type}.

Lemma modelled_count_iff (count : Z) :
  modelled_count count = true <-> 0 <= count < 2 ^ 31.
Proof.
  unfold modelled_count. rewrite andb_true_iff, Z.leb_le, Z.ltb_lt.
  change (2 ^ 31) with 2147483648. tauto.
Qed.

Lemma take_returns (count : Z) (ds : list A) :
  0 <= count < 2 ^ 31 -> take count ds = Returned (firstn (Z.to_nat count) ds).
Proof.
  intros H. unfold take. apply modelled_count_iff in H. rewrite H. reflexivity.
Qed.

Lemma skip_returns (count : Z) (ds : list A) :
  0 <= count < 2 ^ 31 -> skip count ds = Returned (skipn (Z.to_nat count) ds).
Proof.
  intros H. unfold skip. apply modelled_count_iff in H. rewrite H. reflexivity.
Qed.

Lemma take_inversion (count : Z) (ds drawn : list A) :
  take count ds = Returned drawn ->
  0 <= count < 2 ^ 31 /\ drawn = firstn (Z.to_nat count) ds.
Proof.
  unfold take. destruct (modelled_count count) eqn:H; [| discriminate].
  intros [= <-]. apply modelled_count_iff in H. split; [exact H | reflexivity].
Qed.

Lemma skip_inversion (count : Z) (ds rest : list A) :
  skip count ds = Returned rest ->
  0 <= count < 2 ^ 31 /\ rest = skipn (Z.to_nat count) ds.
Proof.
  unfold skip. destruct (modelled_count count) eqn:H; [| discriminate].
  intros [= <-]. apply modelled_count_iff in H. split; [exact H | reflexivity].
Qed.



Lemma take_beyond (count : Z) (ds : list A) :
  len ds < count ->
  firstn (Z.to_nat count) ds = ds /\ skipn (Z.to_nat count) ds = [].
Proof.
  unfold len. intros H.
  split; [apply firstn_all2 | apply skipn_all2]; lia.
Qed.

Lemma take_length (count : Z) (ds drawn : list A) :
  take count ds = Returned drawn -> len drawn = Z.min count (len ds).
Proof.
  intros H. apply take_inversion in H. destruct H as [Hc ->].
  unfold len. rewrite length_firstn. lia.
Qed.

Lemma skip_length (count : Z) (ds rest : list A) :
  skip count ds = Returned rest -> len rest = len ds - Z.min count (len ds).
Proof.
  intros H. apply skip_inversion in H. destruct H as [Hc ->].
  unfold len. rewrite length_skipn. lia.
Qed.
End Facts.
End DatasetFacts.

Module ControllerFacts.
Import PyFloat Dataset Sampling Keras ActiveLearning DatasetFacts.

Section Facts.
Context {X Weights : Type}.
Variable create_model : Weights.
Variable run_epochs :
  nat -> Weights -> list (X * Z) -> list (X * Z) -> list (epoch Weights).
Variable evaluate : Weights -> list (X * Z) -> metrics.

Local Abbreviation state := (@ActiveLearning.state X Weights).
Local Abbreviation round_record := (@ActiveLearning.round_record X Weights).
Local Abbreviation initial_record := (@ActiveLearning.initial_record Weights).
Local Abbreviation round_spec := (ActiveLearning.round_spec run_epochs evaluate).
Local Abbreviation rounds_spec := (ActiveLearning.rounds_spec run_epochs evaluate).
Local Abbreviation initial_spec := (ActiveLearning.initial_spec create_model run_epochs).
Local Abbreviation round := (active_learning_round run_epochs evaluate).
Local Abbreviation loop := (ActiveLearning.loop run_epochs evaluate).
Local Abbreviation run := (train_active_learning_models create_model run_epochs evaluate).

Lemma round_inversion (sampling_size : Z) (iteration : nat)
      (st st' : state) (r : round_record) :
  round sampling_size iteration st = Returned (st', r) ->
  round_spec sampling_size iteration st st' r.
Proof.
  unfold active_learning_round, ActiveLearning.round_spec, sample_counts.
  destruct (sample_ratios _ _) as [r1 r0].
  destruct (sample_count r0 sampling_size) as [k0 | e |]; try discriminate.
  cbn [bind].
  destruct (take k0 _) as [sn | e |] eqn:Hsn; try discriminate.
  cbn [bind].
  destruct (sample_count r1 sampling_size) as [k1 | e |]; try discriminate.
  cbn [bind].
  destruct (take k1 _) as [sp | e |] eqn:Hsp; try discriminate.
  cbn [bind].
  destruct (skip k0 _) as [pn | e |] eqn:Hpn; try discriminate.
  cbn [bind].
  destruct (skip k1 _) as [pp | e |] eqn:Hpp; try discriminate.
  cbn [bind fit append_history concatenate].
  destruct (load_model _) as [w | e |] eqn:Hload; try discriminate.
  cbn [bind]. intros [= <- <-]. cbn.
  unfold load_model in Hload.
  destruct (saved _) as [w' |] eqn:Hsaved; [| discriminate].
  injection Hload as ->.
  repeat split; try reflexivity; assumption.
Qed.

(** A pass that returned asked both reservoirs for modelled counts. *)
Lemma round_counts (sampling_size : Z) (iteration : nat)
      (st st' : state) (r : round_record) :
  round_spec sampling_size iteration st st' r ->
  0 <= rr_k_zeros r < 2 ^ 31 /\ 0 <= rr_k_ones r < 2 ^ 31.
Proof.
  intros (_ & _ & _ & _ & Hsn & Hsp & _).
  apply take_inversion in Hsn. apply take_inversion in Hsp. tauto.
Qed.

Lemma loop_inversion (sampling_size : Z) (iterations : list nat) :
  forall (st st' : state) (rs : list round_record),
    loop sampling_size iterations st = Returned (st', rs) ->
    linked st rs st' /\ rounds_spec sampling_size iterations rs.
Proof.
  induction iterations as [| i rest IH]; intros st st' rs; cbn [ActiveLearning.loop].
  - intros [= <- <-]. split; [reflexivity | constructor].
  - destruct (round sampling_size i st) as [[st1 r] | e |] eqn:Hr; try discriminate.
    cbn [bind].
    destruct (loop sampling_size rest st1) as [[st2 rs'] | e |] eqn:Hl;
      try discriminate.
    cbn [bind]. intros [= <- <-].
    apply round_inversion in Hr. apply IH in Hl. destruct Hl as [Hlink Hspec].
    pose proof Hr as (Hb & Ha & _).
    split.
    + cbn. rewrite Ha. split; assumption.
    + constructor; [| exact Hspec]. rewrite Hb, Ha. exact Hr.
Qed.

Lemma linked_nth (rs : list round_record) :
  forall (st st' : state) (i : nat) (r r' : round_record),
    linked st rs st' ->
    nth_error rs i = Some r -> nth_error rs (S i) = Some r' ->
    rr_before r' = rr_after r.
Proof.
  induction rs as [| r0 rs IH]; intros st st' i r r' Hl Hi Hi'.
  - destruct i; discriminate.
  - destruct Hl as [_ Hl]. destruct i as [| i].
    + injection Hi as <-. destruct rs as [| r1 rs]; [discriminate |].
      injection Hi' as <-. destruct Hl as [Hb _]. exact Hb.
    + exact (IH _ _ _ _ _ Hl Hi Hi').
Qed.

Lemma linked_first (rs : list round_record) (st st' : state) (r : round_record) :
  linked st rs st' -> nth_error rs 0 = Some r -> rr_before r = st.
Proof.
  destruct rs as [| r0 rs]; [discriminate |].
  intros [Hb _] [= <-]. exact Hb.
Qed.

Lemma linked_last (rs : list round_record) :
  forall (st st' : state) (r : round_record),
    linked st (rs ++ [r]) st' -> rr_after r = st'.
Proof.
  induction rs as [| r0 rs IH]; intros st st' r.
  - intros [_ H]. exact H.
  - intros [_ H]. exact (IH _ _ _ H).
Qed.


(** The train set is appended to, validation and test stay. *)
Lemma train_grown (sampling_size : Z) (rs : list round_record) :
  forall (iterations : list nat) (st st' : state),
    linked st rs st' -> rounds_spec sampling_size iterations rs ->
    train_dataset st'
    = train_dataset st
      ++ concat (map (fun r => rr_sampled_negatives r ++ rr_sampled_positives r) rs)
    /\ val_dataset st' = val_dataset st
    /\ test_dataset st' = test_dataset st.
Proof.
  induction rs as [| r rs IH]; intros iterations st st' Hl Hs.
  - cbn in Hl. subst st'. cbn. rewrite app_nil_r. repeat split.
  - destruct Hl as [Hb Hl]. inversion Hs as [| i ? its ? Hr Hs']; subst.
    destruct (IH _ _ _ Hl Hs') as (IHt & IHv & IHe).
    destruct Hr as (_ & _ & _ & _ & _ & _ & _ & _ & Ht & Hv & He & _).
    cbn [map concat]. rewrite IHt, IHv, IHe, Ht, Hv, He, <- !app_assoc.
    repeat split.
Qed.

Lemma on_epoch_end_tracks (ck : Keras.checkpoint Weights) (es : list (epoch Weights))
      (e : epoch Weights) :
  tracks ck es -> tracks (on_epoch_end ck e) (es ++ [e]).
Proof.
  intros [[-> ->] | (e0 & Hin & Hmin & Hbest & Hsaved)]; right.
  - exists e. cbn. repeat split; try reflexivity; [tauto |].
    intros e' [<- | []]. apply Qle_refl.
  - unfold on_epoch_end. rewrite Hbest. cbn [improves].
    destruct (Qle_bool (ep_val_loss e0) (ep_val_loss e)) eqn:Hcmp; cbn [negb].
    + apply Qle_bool_iff in Hcmp.
      exists e0. repeat split; try assumption.
      * apply in_or_app. left. exact Hin.
      * intros e' He'. apply in_app_or in He'.
        destruct He' as [He' | [<- | []]]; [apply Hmin; exact He' | exact Hcmp].
    + assert (Hlt : (ep_val_loss e < ep_val_loss e0)%Q).
      { apply Qnot_le_lt. intros Hle. apply Qle_bool_iff in Hle. congruence. }
      exists e. cbn [best saved]. repeat split.
      * apply in_or_app. right. left. reflexivity.
      * intros e' He'. apply in_app_or in He'.
        destruct He' as [He' | [<- | []]]; [| apply Qle_refl].
        apply Qle_trans with (ep_val_loss e0); [apply Qlt_le_weak; exact Hlt |].
        apply Hmin. exact He'.
Qed.

Lemma fold_tracks (es' : list (epoch Weights)) :
  forall (ck : Keras.checkpoint Weights) (es : list (epoch Weights)),
    tracks ck es -> tracks (fold_left on_epoch_end es' ck) (es ++ es').
Proof.
  induction es' as [| e es' IH]; intros ck es H; cbn [fold_left].
  - rewrite app_nil_r. exact H.
  - replace (es ++ e :: es') with ((es ++ [e]) ++ es')
      by (rewrite <- app_assoc; reflexivity).
    apply IH, on_epoch_end_tracks, H.
Qed.

Lemma loop_tracks (sampling_size : Z) (rs : list round_record) :
  forall (iterations : list nat) (st st' : state) (es : list (epoch Weights)),
    linked st rs st' -> rounds_spec sampling_size iterations rs ->
    tracks (checkpoint st) es ->
    tracks (checkpoint st') (es ++ concat (map rr_history rs)).
Proof.
  induction rs as [| r rs IH]; intros iterations st st' es Hl Hs Ht.
  - cbn in Hl. subst st'. cbn. rewrite app_nil_r. exact Ht.
  - destruct Hl as [Hb Hl]. inversion Hs as [| i ? its ? Hr Hs']; subst.
    cbn [map concat]. rewrite app_assoc.
    apply (IH _ _ _ _ Hl Hs').
    destruct Hr as (_ & _ & _ & _ & _ & _ & _ & _ & _ & _ & _ & Hh & _ & Hck & _).
    rewrite Hck, Hh. apply fold_tracks. exact Ht.
Qed.

Lemma loop_val_losses (sampling_size : Z) (rs : list round_record) :
  forall (iterations : list nat) (st st' : state),
    linked st rs st' -> rounds_spec sampling_size iterations rs ->
    val_losses st'
    = val_losses st ++ map ep_val_loss (concat (map rr_history rs)).
Proof.
  induction rs as [| r rs IH]; intros iterations st st' Hl Hs.
  - cbn in Hl. subst st'. cbn. rewrite app_nil_r. reflexivity.
  - destruct Hl as [Hb Hl]. inversion Hs as [| i ? its ? Hr Hs']; subst.
    rewrite (IH _ _ _ Hl Hs').
    destruct Hr as (_ & _ & _ & _ & _ & _ & _ & _ & _ & _ & _ & Hh & _ & _ & _ & Hv & _).
    cbn [map concat]. rewrite Hv, Hh, map_app, <- app_assoc. reflexivity.
Qed.

Lemma rounds_spec_In (sampling_size : Z) (iterations : list nat)
      (rs : list round_record) (r : round_record) :
  rounds_spec sampling_size iterations rs -> In r rs ->
  exists i, round_spec sampling_size i (rr_before r) (rr_after r) r.
Proof.
  induction 1 as [| i r0 its rs0 Hr Hs IH]; intros Hin; [contradiction |].
  destruct Hin as [<- | Hin]; [exists i; exact Hr | exact (IH Hin)].
Qed.

Lemma rounds_spec_length (sampling_size : Z) (iterations : list nat)
      (rs : list round_record) :
  rounds_spec sampling_size iterations rs -> length rs = length iterations.
Proof. induction 1; cbn; congruence. Qed.

Lemma fold_keeps_file (es : list (epoch Weights)) :
  forall ck : Keras.checkpoint Weights,
    saved ck <> None -> saved (fold_left on_epoch_end es ck) <> None.
Proof.
  induction es as [| e es IH]; intros ck H; cbn [fold_left]; [exact H |].
  apply IH. unfold on_epoch_end.
  destruct (improves _ _); [cbn; discriminate | exact H].
Qed.

Lemma fold_writes_file (es : list (epoch Weights)) (ck : Keras.checkpoint Weights) :
  best ck = None -> es <> [] -> saved (fold_left on_epoch_end es ck) <> None.
Proof.
  intros Hb Hne. destruct es as [| e es]; [contradiction |].
  cbn [fold_left]. apply fold_keeps_file.
  unfold on_epoch_end. rewrite Hb. cbn. discriminate.
Qed.

Lemma run_inversion (train pool_neg pool_pos val test : list (X * Z))
      (num_iterations : nat) (sampling_size : Z)
      (w : Weights) (st : state) (init : initial_record) (rs : list round_record) :
  run train pool_neg pool_pos val test num_iterations sampling_size
  = Returned (w, st, init, rs) ->
  exists st0 st1,
    initial_spec train pool_neg pool_pos val test st0 init
    /\ linked st0 rs st1
    /\ rounds_spec sampling_size (seq 0 num_iterations) rs
    /\ st = final_evaluation evaluate st1
    /\ w = model st1.
Proof.
  unfold train_active_learning_models, initial_fit.
  cbn [fit append_history].
  match goal with
  | |- context [ActiveLearning.loop _ _ _ _ ?s] => set (st0 := s)
  end.
  destruct (loop sampling_size (seq 0 num_iterations) st0) as [[st1 rs'] | e |] eqn:Hl;
    try discriminate.
  cbn [bind]. intros [= <- <- <- <-].
  apply loop_inversion in Hl. destruct Hl as [Hlink Hspec].
  exists st0, st1. repeat split; assumption || reflexivity.
Qed.

Lemma linked_In (sampling_size : Z) (rs : list round_record) :
  forall (iterations : list nat) (st st' : state) (r : round_record),
    linked st rs st' -> rounds_spec sampling_size iterations rs -> In r rs ->
    val_dataset (rr_before r) = val_dataset st
    /\ test_dataset (rr_before r) = test_dataset st.
Proof.
  induction rs as [| r0 rs IH]; intros iterations st st' r Hl Hs Hin;
    [contradiction |].
  destruct Hl as [Hb Hl]. inversion Hs as [| i ? its ? Hr Hs']; subst.
  destruct Hin as [<- | Hin]; [split; reflexivity |].
  destruct (IH _ _ _ _ Hl Hs' Hin) as [Hv Ht].
  destruct Hr as (_ & _ & _ & _ & _ & _ & _ & _ & _ & Hv0 & Ht0 & _).
  rewrite Hv, Ht, Hv0, Ht0. split; reflexivity.
Qed.

(** The pass at position [i] of a run is the pass of iteration [i]. *)
Lemma rounds_spec_nth (sampling_size : Z) (rs : list round_record) :
  forall (first n i : nat) (r : round_record),
    rounds_spec sampling_size (seq first n) rs ->
    nth_error rs i = Some r ->
    round_spec sampling_size (first + i) (rr_before r) (rr_after r) r.
Proof.
  induction rs as [| r0 rs IH]; intros first n i r Hs Hi.
  - destruct i; discriminate.
  - destruct n as [| n]; [inversion Hs |]. cbn [seq] in Hs.
    inversion Hs as [| ? ? ? ? Hr Hs']; subst.
    destruct i as [| i].
    + injection Hi as <-. rewrite Nat.add_0_r. exact Hr.
    + rewrite <- Nat.add_succ_comm. exact (IH _ _ _ _ Hs' Hi).
Qed.

Lemma round_returns (sampling_size : Z) (iteration : nat) (st : state) (k0 k1 : Z) :
  sample_counts (false_negatives (evaluate (model st) (test_dataset st)))
                (false_positives (evaluate (model st) (test_dataset st)))
                sampling_size = Returned (k0, k1) ->
  0 <= k0 < 2 ^ 31 -> 0 <= k1 < 2 ^ 31 ->
  saved (checkpoint st) <> None ->
  exists st' r, round sampling_size iteration st = Returned (st', r)
                /\ rr_k_zeros r = k0 /\ rr_k_ones r = k1.
Proof.
  unfold sample_counts, active_learning_round.
  destruct (sample_ratios _ _) as [r1 r0].
  destruct (sample_count r0 sampling_size) as [a | e |]; try discriminate.
  destruct (sample_count r1 sampling_size) as [b | e |]; try discriminate.
  cbn [bind]. intros [= <- <-] Hk0 Hk1 Hfile.
  rewrite (take_returns _ _ Hk0), (take_returns _ _ Hk1).
  rewrite (skip_returns _ _ Hk0), (skip_returns _ _ Hk1).
  cbn [bind fit append_history].
  unfold load_model.
  match goal with
  | |- context [saved (fold_left on_epoch_end ?es ?ck)] =>
      pose proof (fold_keeps_file es ck Hfile) as Hkept;
      destruct (saved (fold_left on_epoch_end es ck)) as [w |]; [| contradiction]
  end.
  cbn [bind]. eexists _, _. split; [reflexivity |]. split; reflexivity.
Qed.

(** A run returns when the initial fit trains at least one epoch and
    every evaluation yields error counts from which [int()] computes
    counts that [take] and [skip] accept. *)
Lemma run_returns (train pool_neg pool_pos val test : list (X * Z))
      (num_iterations : nat) (sampling_size : Z) :
  run_epochs 0%nat create_model train val <> [] ->
  (forall w : Weights,
      exists k0 k1,
        sample_counts (false_negatives (evaluate w test))
                      (false_positives (evaluate w test)) sampling_size
        = Returned (k0, k1)
        /\ 0 <= k0 < 2 ^ 31 /\ 0 <= k1 < 2 ^ 31) ->
  exists result,
    run train pool_neg pool_pos val test num_iterations sampling_size
    = Returned result.
Proof.
  intros Hfit Hcounts.
  unfold train_active_learning_models, initial_fit. cbn [fit append_history].
  match goal with
  | |- context [ActiveLearning.loop _ _ _ _ ?s] => set (st0 := s)
  end.
  assert (Hinv : saved (checkpoint st0) <> None /\ test_dataset st0 = test).
  { split; [| reflexivity]. subst st0. cbn [checkpoint].
    apply fold_writes_file; [reflexivity | exact Hfit]. }
  clearbody st0.
  assert (Hloop : exists st1 rs,
             loop sampling_size (seq 0 num_iterations) st0 = Returned (st1, rs)).
  { generalize (seq 0 num_iterations) as iterations.
    intros iterations. revert st0 Hinv.
    induction iterations as [| i rest IH]; intros st0 [Hfile Htest];
      cbn [ActiveLearning.loop].
    - eexists _, _. reflexivity.
    - destruct (Hcounts (model st0)) as (k0 & k1 & Hk & Hk0 & Hk1).
      rewrite <- Htest in Hk.
      destruct (round_returns sampling_size i st0 k0 k1 Hk Hk0 Hk1 Hfile)
        as (st1 & r & Hr & _ & _).
      rewrite Hr. cbn [bind].
      apply round_inversion in Hr.
      destruct Hr as (_ & _ & _ & _ & _ & _ & _ & _ & _ & _ & Ht & _ & _ & _ & Hs & _).
      destruct (IH st1) as (st2 & rs & Hl).
      { split; [rewrite Hs; discriminate | rewrite Ht; exact Htest]. }
      rewrite Hl. cbn [bind]. eexists _, _. reflexivity. }
  destruct Hloop as (st1 & rs & Hl). rewrite Hl. cbn [bind].
  eexists. reflexivity.
Qed.

(** C2 (as amended). The live weights are carried over without a reload
    only from the initial fit into the first pass of the loop.  The pass
    of iteration [i] fits from the weights it begins with, on the train
    set it has just enlarged; it ends by loading the checkpoint file, and
    the next pass begins with the weights so loaded.  So each later pass
    starts its fit from the weights read from the file, not from those
    its predecessor's fit left in memory; the file is read once per pass,
    [num_iterations] times in all, and the returned model is the one
    read at the end of the last pass. *)
Theorem checkpoint_reloaded_every_round
        (train pool_neg pool_pos val test : list (X * Z))
        (num_iterations : nat) (sampling_size : Z)
        (w : Weights) (st : state) (init : initial_record)
        (rs : list round_record) :
  run train pool_neg pool_pos val test num_iterations sampling_size
  = Returned (w, st, init, rs) ->
  length rs = num_iterations
  /\ (ir_fit_start init = create_model
      /\ ir_history init = run_epochs 0%nat create_model train val
      /\ ir_fit_end init = last (map ep_weights (ir_history init)) create_model)
  /\ (forall r, nth_error rs 0 = Some r -> model (rr_before r) = ir_fit_end init)
  /\ (forall i r, nth_error rs i = Some r ->
        rr_history r
        = run_epochs (S i) (model (rr_before r)) (train_dataset (rr_after r)) val
        /\ checkpoint (rr_after r)
           = fold_left on_epoch_end (rr_history r) (checkpoint (rr_before r)))
  /\ (forall r, In r rs ->
        rr_fit_end r = last (map ep_weights (rr_history r)) (model (rr_before r))
        /\ load_model (checkpoint (rr_after r)) = Returned (model (rr_after r)))
  /\ (forall i r r',
        nth_error rs i = Some r -> nth_error rs (S i) = Some r' ->
        model (rr_before r') = model (rr_after r)
        /\ checkpoint (rr_before r') = checkpoint (rr_after r))
  /\ (forall rs' r, rs = rs' ++ [r] -> w = model (rr_after r))
  /\ (rs = [] -> w = ir_fit_end init).
Proof.
  intros Hrun.
  destruct (run_inversion _ _ _ _ _ _ _ _ _ _ _ Hrun)
    as (st0 & st1 & Hinit & Hlink & Hspec & _ & ->).
  destruct Hinit as (_ & _ & _ & Hv0 & _ & Hstart & Hh0 & Hend0 & Hm0 & _).
  split; [rewrite (rounds_spec_length _ _ _ Hspec); apply length_seq |].
  split; [rewrite Hend0, Hh0; repeat split; assumption |].
  split; [intros r Hr; rewrite (linked_first _ _ _ _ Hlink Hr); exact Hm0 |].
  split.
  { intros i r Hi.
    pose proof (rounds_spec_nth _ _ _ _ _ _ Hspec Hi) as Hr.
    destruct (linked_In _ _ _ _ _ _ Hlink Hspec (nth_error_In _ _ Hi)) as [Hvb _].
    destruct Hr as (_ & _ & _ & _ & _ & _ & _ & _ & _ & _ & _ & Hh & _ & Hck & _).
    cbn [Nat.add] in Hh. rewrite Hvb, Hv0 in Hh. rewrite Hh at 1.
    split; [reflexivity |]. rewrite Hck, Hh, Hvb, Hv0. reflexivity. }
  split.
  { intros r Hin. destruct (rounds_spec_In _ _ _ _ Hspec Hin) as [i Hr].
    destruct Hr as (_ & _ & _ & _ & _ & _ & _ & _ & _ & _ & _ & Hh & Hend & _ & Hs & _).
    split; [rewrite Hend, Hh; reflexivity |].
    unfold load_model. rewrite Hs. reflexivity. }
  split.
  { intros i r r' Hi Hi'. rewrite (linked_nth _ _ _ _ _ _ Hlink Hi Hi').
    split; reflexivity. }
  split.
  { intros rs' r ->. rewrite (linked_last _ _ _ _ Hlink). reflexivity. }
  intros ->. cbn in Hlink. subst st1. exact Hm0.
Qed.

(** C3 (as amended). When the loop runs at least once, the model that
    is returned and evaluated on the test set at the end carries the
    weights of an epoch whose validation loss no epoch of the whole run
    beats, the initial fit and every pass included; that loss is the
    callback's [best], and the validation losses logged are those of
    these epochs. *)
Theorem final_model_globally_best
        (train pool_neg pool_pos val test : list (X * Z))
        (num_iterations : nat) (sampling_size : Z)
        (w : Weights) (st : state) (init : initial_record)
        (rs : list round_record) :
  (0 < num_iterations)%nat ->
  run train pool_neg pool_pos val test num_iterations sampling_size
  = Returned (w, st, init, rs) ->
  exists e,
    In e (all_epochs init rs)
    /\ (forall e', In e' (all_epochs init rs) ->
                   (ep_val_loss e <= ep_val_loss e')%Q)
    /\ w = ep_weights e
    /\ model st = ep_weights e
    /\ best (checkpoint st) = Some (ep_val_loss e)
    /\ val_losses st = map ep_val_loss (all_epochs init rs)
    /\ exists printed,
        stdout st
        = printed ++ [Rule; TestSetEvaluation (evaluate (ep_weights e) test); Rule].
Proof.
  intros Hpos Hrun.
  destruct (run_inversion _ _ _ _ _ _ _ _ _ _ _ Hrun)
    as (st0 & st1 & Hinit & Hlink & Hspec & -> & ->).
  destruct Hinit as (_ & _ & _ & _ & Htest0 & _ & Hh0 & _ & _ & Hck0 & Hv0 & _).
  assert (Htr : tracks (checkpoint st1) (all_epochs init rs)).
  { unfold all_epochs. apply (loop_tracks _ _ _ _ _ _ Hlink Hspec).
    rewrite Hck0, Hh0. apply (fold_tracks _ new_checkpoint []).
    left. split; reflexivity. }
  assert (Hlast : saved (checkpoint st1) = Some (model st1)).
  { pose proof (rounds_spec_length _ _ _ Hspec) as Hlen. rewrite length_seq in Hlen.
    destruct (exists_last (l := rs)) as (rs' & r & ->).
    { intros ->. cbn in Hlen. lia. }
    pose proof (linked_last _ _ _ _ Hlink) as Hafter.
    destruct (rounds_spec_In _ _ _ r Hspec) as [i Hr];
      [apply in_or_app; right; left; reflexivity |].
    destruct Hr as (_ & _ & _ & _ & _ & _ & _ & _ & _ & _ & _ & _ & _ & _ & Hs & _).
    rewrite <- Hafter. exact Hs. }
  destruct (train_grown _ _ _ _ _ Hlink Hspec) as (_ & _ & Htest).
  destruct Htr as [[_ Hnew] | (e & Hin & Hmin & Hbest & Hsaved)].
  - rewrite Hnew in Hlast. discriminate.
  - rewrite Hsaved in Hlast. injection Hlast as Hw.
    exists e. cbn [final_evaluation model checkpoint val_losses stdout].
    repeat split; try assumption; try (symmetry; assumption).
    + rewrite (loop_val_losses _ _ _ _ _ Hlink Hspec), Hv0, <- Hh0.
      unfold all_epochs. rewrite map_app. reflexivity.
    + exists (stdout st1). rewrite <- Hw, Htest, Htest0. reflexivity.
Qed.


(** C6 (as amended). Each pass asks the two reservoirs for the counts
    [k_zeros] and [k_ones] that [int(ratio * sampling_size)] gives for
    that pass's evaluation, and appends what it drew to the train set:
    the size grows by the number of examples actually taken, which is
    the smaller of the requested count and what the reservoir holds, so
    the size never decreases; each pass starts from the train set the
    previous one left; validation and test set are the same in every
    pass and at the end. *)
Theorem train_growth
        (train pool_neg pool_pos val test : list (X * Z))
        (num_iterations : nat) (sampling_size : Z)
        (w : Weights) (st : state) (init : initial_record)
        (rs : list round_record) :
  run train pool_neg pool_pos val test num_iterations sampling_size
  = Returned (w, st, init, rs) ->
  length rs = num_iterations
  /\ (forall r, In r rs ->
      (rr_evaluation r = evaluate (model (rr_before r)) test
       /\ sample_counts (false_negatives (rr_evaluation r))
                        (false_positives (rr_evaluation r)) sampling_size
          = Returned (rr_k_zeros r, rr_k_ones r)
       /\ take (rr_k_zeros r) (pool_negatives (rr_before r))
          = Returned (rr_sampled_negatives r)
       /\ take (rr_k_ones r) (pool_positives (rr_before r))
          = Returned (rr_sampled_positives r))
      /\ train_dataset (rr_after r)
         = train_dataset (rr_before r)
           ++ rr_sampled_negatives r ++ rr_sampled_positives r
      /\ len (train_dataset (rr_after r))
         = len (train_dataset (rr_before r))
           + Z.min (rr_k_zeros r) (len (pool_negatives (rr_before r)))
           + Z.min (rr_k_ones r) (len (pool_positives (rr_before r)))
      /\ (rr_k_zeros r <= len (pool_negatives (rr_before r)) ->
          rr_k_ones r <= len (pool_positives (rr_before r)) ->
          len (train_dataset (rr_after r))
          = len (train_dataset (rr_before r)) + rr_k_ones r + rr_k_zeros r)
      /\ len (train_dataset (rr_before r)) <= len (train_dataset (rr_after r))
      /\ val_dataset (rr_before r) = val /\ val_dataset (rr_after r) = val
      /\ test_dataset (rr_before r) = test /\ test_dataset (rr_after r) = test)
  /\ (forall r, nth_error rs 0 = Some r -> train_dataset (rr_before r) = train)
  /\ (forall i r r',
        nth_error rs i = Some r -> nth_error rs (S i) = Some r' ->
        train_dataset (rr_before r') = train_dataset (rr_after r))
  /\ train_dataset st
     = train ++ concat (map (fun r => rr_sampled_negatives r ++ rr_sampled_positives r) rs)
  /\ val_dataset st = val
  /\ test_dataset st = test.
Proof.
  intros Hrun.
  destruct (run_inversion _ _ _ _ _ _ _ _ _ _ _ Hrun)
    as (st0 & st1 & Hinit & Hlink & Hspec & -> & _).
  destruct Hinit as (Ht0 & _ & _ & Hv0 & He0 & _).
  destruct (train_grown _ _ _ _ _ Hlink Hspec) as (Ht & Hv & He).
  cbn [final_evaluation train_dataset val_dataset test_dataset].
  split; [rewrite (rounds_spec_length _ _ _ Hspec); apply length_seq |].
  split.
  { intros r Hin.
    destruct (linked_In _ _ _ _ _ _ Hlink Hspec Hin) as [Hvb Heb].
    destruct (rounds_spec_In _ _ _ _ Hspec Hin) as [i Hr].
    destruct Hr as (_ & _ & Hev & Hk & Hsn & Hsp & _ & _ & Htr & Hva & Hea & _).
    pose proof (take_length _ _ _ Hsn) as Hln.
    pose proof (take_length _ _ _ Hsp) as Hlp.
    apply take_inversion in Hsn as Hrn. apply take_inversion in Hsp as Hrp.
    rewrite Heb, He0 in Hev, Hk. rewrite <- Hev in Hk.
    rewrite Hva, Hea, Hvb, Heb, Hv0, He0.
    assert (Hgrow : len (train_dataset (rr_after r))
                    = len (train_dataset (rr_before r))
                      + len (rr_sampled_negatives r) + len (rr_sampled_positives r)).
    { rewrite Htr. unfold len. rewrite !length_app. lia. }
    split; [repeat split; assumption |].
    split; [exact Htr |].
    unfold len in *. repeat split; lia. }
  split; [intros r Hr; rewrite (linked_first _ _ _ _ Hlink Hr); exact Ht0 |].
  split.
  { intros i r r' Hi Hi'. rewrite (linked_nth _ _ _ _ _ _ Hlink Hi Hi'). reflexivity. }
  rewrite Ht, Hv, He, Ht0, Hv0, He0. repeat split.
Qed.

(** C7 (as amended). Asking a reservoir for more than it holds is not an
    error.  For the counts [take] and [skip] are modelled on, below
    [2^31], the pass returns normally, the draw is everything that was
    left and the reservoir is empty afterwards, and training goes on with
    the enlarged train set.  The pass prints its five usual lines, the
    last-but-one with the new size of the train set; it prints nothing
    about the shortfall. *)
Theorem exhaustion_is_not_an_error
        (sampling_size : Z) (iteration : nat) (st : state) (k_zeros k_ones : Z) :
  let ev := evaluate (model st) (test_dataset st) in
  sample_counts (false_negatives ev) (false_positives ev) sampling_size
  = Returned (k_zeros, k_ones) ->
  0 <= k_zeros < 2 ^ 31 -> 0 <= k_ones < 2 ^ 31 ->
  saved (checkpoint st) <> None ->
  exists st' r,
    round sampling_size iteration st = Returned (st', r)
    /\ rr_k_zeros r = k_zeros /\ rr_k_ones r = k_ones
    /\ (len (pool_negatives st) < k_zeros ->
        rr_sampled_negatives r = pool_negatives st /\ pool_negatives st' = [])
    /\ (len (pool_positives st) < k_ones ->
        rr_sampled_positives r = pool_positives st /\ pool_positives st' = [])
    /\ train_dataset st'
       = train_dataset st ++ rr_sampled_negatives r ++ rr_sampled_positives r
    /\ rr_history r
       = run_epochs (S iteration) (model st) (train_dataset st') (val_dataset st)
    /\ rr_printed r
       = [Rule; Misclassified (false_negatives ev) (false_positives ev);
          SampleRatio (fst (sample_ratios (false_negatives ev) (false_positives ev)))
                      (snd (sample_ratios (false_negatives ev) (false_positives ev)));
          StartingTraining (len (train_dataset st')); Rule]
    /\ stdout st' = stdout st ++ rr_printed r.
Proof.
  intros ev Hk Hr0 Hr1 Hfile.
  destruct (round_returns sampling_size iteration st k_zeros k_ones Hk Hr0 Hr1 Hfile)
    as (st' & r & Hr & Hk0 & Hk1).
  exists st', r. split; [exact Hr |].
  apply round_inversion in Hr.
  destruct Hr as (_ & _ & _ & _ & Hsn & Hsp & Hpn & Hpp & Htr & _ & _ & Hh & _
                  & _ & _ & _ & Hpr & Hout).
  rewrite Hk0 in Hsn, Hpn. rewrite Hk1 in Hsp, Hpp.
  apply take_inversion in Hsn. apply take_inversion in Hsp.
  apply skip_inversion in Hpn. apply skip_inversion in Hpp.
  split; [exact Hk0 |]. split; [exact Hk1 |].
  split.
  { intros Hlt. destruct (take_beyond _ _ Hlt) as [H1 H2].
    destruct Hsn as [_ ->]. destruct Hpn as [_ ->]. split; assumption. }
  split.
  { intros Hlt. destruct (take_beyond _ _ Hlt) as [H1 H2].
    destruct Hsp as [_ ->]. destruct Hpp as [_ ->]. split; assumption. }
  repeat split; assumption.
Qed.

End Facts.
End ControllerFacts.

(** ** The statements at concrete inputs *)

Module Checks.
Import PyFloat Dataset Sampling Keras ActiveLearning.

(** C1 at 30 false negatives and 70 false positives, and at 0 and 12. *)
Lemma sample_ratios_cross_assignment_witness :
  sample_ratios 30 70 = (0.7, 0.3)%float /\ sample_ratios 0 12 = (0.5, 0.5)%float.
Proof.
  split.
  - rewrite (proj1 (SamplingFacts.sample_ratios_cross_assignment 30 70) eq_refl eq_refl).
    reflexivity.
  - exact (proj2 (SamplingFacts.sample_ratios_cross_assignment 0 12)
                 (or_introl eq_refl)).
Defined.

(** C8 at ratio 0.7 and sampling size 5000, and at the counts 3 and 1 with
    sampling size 8. *)
Lemma sample_count_is_floor_witness :
  sample_count 0.7 5000 = Returned 3500
  /\ sample_counts 3 1 8 = Returned (6, 2).
Proof.
  split.
  - rewrite (proj1 SamplingFacts.sample_count_is_floor 0.7%float 5000).
    + reflexivity.
    + split; reflexivity.
  - rewrite (proj2 SamplingFacts.sample_count_is_floor 3%float 1%float 8).
    + reflexivity.
    + split; reflexivity.
    + split; reflexivity.
Defined.



(** C4, counterexample.  One review per class, eight requested per class:
    the construction returns, with a short validation set and everything
    else empty. *)
Lemma construct_returns_on_short_corpus :
  Split.construct [10%nat; 20%nat] [1; 0] 2 2 4
  = Returned {| Split.train_dataset := [];
                Split.val_dataset := [(10%nat, 1); (20%nat, 0)];
                Split.test_dataset := [];
                Split.pool_negatives := [];
                Split.pool_positives := [] |}.
Proof. reflexivity. Qed.

(** C4 (as amended) at the same corpus. *)
Lemma construct_never_fails_witness :
  exists s, Split.construct [10%nat; 20%nat] [1; 0] 2 2 4 = Returned s
            /\ Split.pool_positives s = [] /\ Split.pool_negatives s = []
            /\ (length (Split.val_dataset s) + length (Split.test_dataset s)
                + length (Split.train_dataset s) < 16)%nat.
Proof.
  destruct (SplitFacts.construct_never_fails [10%nat; 20%nat] [1; 0] 2 2 4 eq_refl)
    as (s & Hs & HP & HN & Hshort).
  exists s. split; [exact Hs |].
  split; [apply HP; cbn; lia |].
  split; [apply HN; cbn; lia |].
  apply Hshort. left. cbn. lia.
Defined.

(** C9 at eight reviews with alternating labels and sizes 1/1/1. *)
Lemma make_splits_partition_witness :
  let s := Split.make_splits (seq 0 8) [1; 0; 1; 0; 1; 0; 1; 0] 1 1 1 in
  Split.val_dataset s = [(0%nat, 1); (1%nat, 0)]
  /\ Split.test_dataset s = [(2%nat, 1); (3%nat, 0)]
  /\ Split.train_dataset s = [(4%nat, 1); (5%nat, 0)]
  /\ length (Split.pool_positives s) = 1%nat
  /\ NoDup (Split.val_dataset s ++ Split.test_dataset s ++ Split.train_dataset s
            ++ Split.pool_negatives s ++ Split.pool_positives s).
Proof.
  destruct (SplitFacts.make_splits_partition (seq 0 8) [1; 0; 1; 0; 1; 0; 1; 0] 1 1 1 eq_refl)
    as ((Hv & Ht & Htr) & _ & _ & Hlen & Hnd).
  cbn zeta.
  split; [exact Hv |]. split; [exact Ht |]. split; [exact Htr |].
  split.
  - destruct Hlen as (_ & _ & _ & _ & _ & _ & HP & _); [cbn; lia | cbn; lia |].
    exact HP.
  - apply Hnd. cbn. repeat constructor; cbn; intuition congruence.
Defined.

(** The specification's end-to-end scenario: 20 + 20 reviews, 2/2/4 per
    class, one pass with 3 false negatives, 1 false positive and a sampling
    size of 8. *)
Example end_to_end_scenario :
  exists w st init r,
    Fixture.run 1 8 = Returned (w, st, init, [r])
    /\ length (train_dataset (rr_before r)) = 8%nat
    /\ (rr_k_ones r, rr_k_zeros r) = (2, 6)
    /\ length (train_dataset st) = 16%nat
    /\ length (pool_positives st) = 10%nat
    /\ length (pool_negatives st) = 6%nat.
Proof.
  do 4 eexists. split; [vm_compute; reflexivity |]. repeat split.
Qed.

(** C2, counterexample.  Two passes of the toy classifier: the first
    pass's fit leaves weights 4 in memory, the checkpoint file holds
    weights 3, and the second pass's fit starts from 3. *)
Lemma next_fit_does_not_start_from_live_weights :
  exists w st init r r',
    Fixture.run 2 8 = Returned (w, st, init, [r; r'])
    /\ rr_fit_end r = 4%nat
    /\ load_model (checkpoint (rr_after r)) = Returned 3%nat
    /\ model (rr_before r') = 3%nat
    /\ model (rr_before r') <> rr_fit_end r.
Proof.
  do 5 eexists. split; [vm_compute; reflexivity |].
  repeat split. discriminate.
Qed.

(** C2 (as amended) at the same run: two passes, each fitting from the
    weights it begins with, the second beginning with what the first
    loaded. *)
Lemma checkpoint_reloaded_every_round_witness :
  exists w st init rs,
    Fixture.run 2 8 = Returned (w, st, init, rs)
    /\ length rs = 2%nat
    /\ (forall i r, nth_error rs i = Some r ->
           rr_history r
           = Fixture.run_epochs (S i) (model (rr_before r))
               (train_dataset (rr_after r)) (Split.val_dataset Fixture.corpus))
    /\ (forall i r r',
           nth_error rs i = Some r -> nth_error rs (S i) = Some r' ->
           model (rr_before r') = model (rr_after r)).
Proof.
  assert (H : exists x, Fixture.run 2 8 = Returned x)
    by (eexists; vm_compute; reflexivity).
  destruct H as [[[[w st] init] rs] H].
  exists w, st, init, rs. split; [exact H |].
  destruct (ControllerFacts.checkpoint_reloaded_every_round _ _ _ _ _ _ _ _ _ _ _ _ _ _ H)
    as (Hlen & _ & _ & Hfit & _ & Hnext & _).
  split; [exact Hlen |].
  split; [intros i r Hi; exact (proj1 (Hfit i r Hi)) |].
  intros i r r' Hi Hi'. exact (proj1 (Hnext i r r' Hi Hi')).
Defined.

(** C3, counterexample.  With [num_iterations = 0] nothing is loaded: the
    model returned and evaluated holds the weights of the initial fit's last
    epoch (validation loss 5), not those of its first epoch (loss 1). *)
Lemma without_rounds_final_model_is_not_best :
  exists w st init rs,
    Fixture.run 0 8 = Returned (w, st, init, rs)
    /\ ~ (exists e, In e (all_epochs init rs)
                    /\ (forall e', In e' (all_epochs init rs) ->
                                   (ep_val_loss e <= ep_val_loss e')%Q)
                    /\ w = ep_weights e).
Proof.
  do 4 eexists. split; [vm_compute; reflexivity |].
  intros (e & Hin & Hmin & Hw).
  cbn in Hin. destruct Hin as [<- | [<- | []]].
  - cbn in Hw. discriminate.
  - specialize (Hmin (Fixture.epoch_of 0 0 0) (or_introl eq_refl)).
    vm_compute in Hmin. apply Hmin. reflexivity.
Qed.

(** C3 (as amended) at the toy run with two passes. *)
Lemma final_model_globally_best_witness :
  exists w st init rs e,
    Fixture.run 2 8 = Returned (w, st, init, rs)
    /\ In e (all_epochs init rs)
    /\ (forall e', In e' (all_epochs init rs) -> (ep_val_loss e <= ep_val_loss e')%Q)
    /\ w = ep_weights e.
Proof.
  assert (H : exists x, Fixture.run 2 8 = Returned x)
    by (eexists; vm_compute; reflexivity).
  destruct H as [[[[w st] init] rs] H].
  destruct (ControllerFacts.final_model_globally_best
              _ _ _ _ _ _ _ _ 2 _ _ _ _ _ ltac:(lia) H)
    as (e & Hin & Hmin & Hw & _).
  exists w, st, init, rs, e. repeat split; assumption.
Defined.


(** C6, counterexample.  One example left in each reservoir, 6 negatives
    and 2 positives requested: the train set grows from 8 to 10, not 16. *)
Lemma train_grows_by_less_than_requested :
  exists w st init r,
    train_active_learning_models Fixture.create_model Fixture.run_epochs Fixture.evaluate
      (Fixture.examples 0 8 1) [(100%nat, 0)] [(200%nat, 1)]
      (Split.val_dataset Fixture.corpus) (Split.test_dataset Fixture.corpus) 1 8
    = Returned (w, st, init, [r])
    /\ (rr_k_ones r, rr_k_zeros r) = (2, 6)
    /\ len (train_dataset (rr_before r)) = 8
    /\ len (train_dataset (rr_after r)) = 10
    /\ len (train_dataset (rr_after r))
       <> len (train_dataset (rr_before r)) + rr_k_ones r + rr_k_zeros r.
Proof.
  do 4 eexists. split; [vm_compute; reflexivity |].
  repeat split. discriminate.
Qed.

(** C6 (as amended) at the toy run with two passes. *)
Lemma train_growth_witness :
  exists w st init rs,
    Fixture.run 2 8 = Returned (w, st, init, rs)
    /\ length rs = 2%nat
    /\ val_dataset st = Split.val_dataset Fixture.corpus
    /\ test_dataset st = Split.test_dataset Fixture.corpus
    /\ (forall r, In r rs ->
          (rr_k_zeros r, rr_k_ones r) = (6, 2)
          /\ len (train_dataset (rr_after r))
             = len (train_dataset (rr_before r))
               + Z.min 6 (len (pool_negatives (rr_before r)))
               + Z.min 2 (len (pool_positives (rr_before r)))).
Proof.
  assert (H : exists x, Fixture.run 2 8 = Returned x)
    by (eexists; vm_compute; reflexivity).
  destruct H as [[[[w st] init] rs] H].
  exists w, st, init, rs. split; [exact H |].
  destruct (ControllerFacts.train_growth _ _ _ _ _ _ _ _ _ _ _ _ _ _ H)
    as (Hlen & Hround & _ & _ & _ & Hv & Ht).
  split; [exact Hlen |]. split; [exact Hv |]. split; [exact Ht |].
  intros r Hin. destruct (Hround r Hin) as ((Hev & Hk & _) & _ & Hgrow & _).
  rewrite Hev in Hk. cbn [Fixture.evaluate false_negatives false_positives] in Hk.
  change (sample_counts 3 1 8) with (Returned (A := Z * Z) (6, 2)) in Hk.
  injection Hk as Hk0 Hk1.
  rewrite <- Hk0, <- Hk1 in Hgrow. rewrite <- Hk0, <- Hk1.
  split; [reflexivity | exact Hgrow].
Defined.

(** C7, counterexample.  Nothing the pass prints tells a short draw from a
    full one: the pass from [ample] and the pass from [short] print the same
    five lines, so no reading of the output detects the shortfall. *)
Lemma shortfall_is_not_printed :
  ~ exists detect : list line -> bool,
      forall (st st' : state) (r : round_record),
        active_learning_round Fixture.run_epochs Fixture.evaluate 8 0 st
        = Returned (st', r) ->
        (detect (rr_printed r) = true <-> exhausted r).
Proof.
  intros [detect H].
  assert (HA : exists st' r,
             active_learning_round Fixture.run_epochs Fixture.evaluate 8 0 Fixture.ample
             = Returned (st', r) /\ ~ exhausted r).
  { do 2 eexists. split; [vm_compute; reflexivity |].
    unfold exhausted. cbn. lia. }
  destruct HA as (stA & rA & HrA & HnA).
  assert (HB : exists st' r,
             active_learning_round Fixture.run_epochs Fixture.evaluate 8 0 Fixture.short
             = Returned (st', r) /\ exhausted r).
  { do 2 eexists. split; [vm_compute; reflexivity |].
    unfold exhausted. cbn. lia. }
  destruct HB as (stB & rB & HrB & HeB).
  assert (Hsame : rr_printed rA = rr_printed rB).
  { vm_compute in HrA, HrB. injection HrA as _ <-. injection HrB as _ <-. reflexivity. }
  apply HnA. apply (H _ _ _ HrA). rewrite Hsame. apply (H _ _ _ HrB). exact HeB.
Qed.

(** C7 (as amended) at the state whose negative reservoir runs out. *)
Lemma exhaustion_is_not_an_error_witness :
  exists st' r,
    active_learning_round Fixture.run_epochs Fixture.evaluate 8 0 Fixture.short
    = Returned (st', r)
    /\ rr_k_zeros r = 6
    /\ rr_sampled_negatives r = Fixture.examples 100 1 0
    /\ pool_negatives st' = [].
Proof.
  destruct (ControllerFacts.exhaustion_is_not_an_error
              Fixture.run_epochs Fixture.evaluate 8 0 Fixture.short 6 2)
    as (st' & r & Hr & Hk0 & _ & Hneg & _).
  - vm_compute. reflexivity.
  - lia.
  - lia.
  - cbn. discriminate.
  - exists st', r. split; [exact Hr |]. split; [exact Hk0 |].
    apply Hneg. cbn. lia.
Defined.

End Checks.
